(** * Per-request context resolution of flask-demograder (src/context.py)

    A shallow embedding of [get_context] and its helpers.  The request
    context and the URL arguments are Python dicts, modelled as
    [gmap string _]; every helper threads them explicitly and may raise a
    Python exception, modelled by the error monad [M]. *)

From stdpp Require Import base gmap strings list fin_maps.
From Stdlib Require Import Ascii FunctionalExtensionality.

(* ------------------------------------------------------------------ *)
(** ** Data model *)

(** [class Role(IntEnum)]: STUDENT = 0 < INSTRUCTOR = 1 < FACULTY = 2 < ADMIN = 3. *)
Inductive Role := STUDENT | INSTRUCTOR | FACULTY | ADMIN.

#[global] Instance Role_eq_dec : EqDecision Role.
Proof. solve_decision. Defined.

Definition role_value (r : Role) : nat :=
  match r with STUDENT => 0 | INSTRUCTOR => 1 | FACULTY => 2 | ADMIN => 3 end.

(** [min(a, b)] on IntEnum members: the first argument unless the second is
    strictly smaller. *)
Definition role_min (a b : Role) : Role :=
  if Nat.ltb (role_value b) (role_value a) then b else a.

(** [Role.__members__] lookup, i.e. [Role[name]]; [None] is a KeyError. *)
Definition role_of_name (s : string) : option Role :=
  if String.eqb s "STUDENT" then Some STUDENT
  else if String.eqb s "INSTRUCTOR" then Some INSTRUCTOR
  else if String.eqb s "FACULTY" then Some FACULTY
  else if String.eqb s "ADMIN" then Some ADMIN
  else None.

(** [str.upper], on the ASCII letters. *)
Definition ascii_upper (c : ascii) : ascii :=
  let n := nat_of_ascii c in
  if (Nat.leb 97 n && Nat.leb n 122)%bool then ascii_of_nat (n - 32) else c.

Fixpoint upper (s : string) : string :=
  match s with
  | EmptyString => EmptyString
  | String c s' => String (ascii_upper c) (upper s')
  end.

(** Modelled from the spec: the [User] and [Course] models of models.py
    (not in src/).  A user row has an id, a unique email and the two
    privilege flags [admin] and [faculty]; a course row has an id. *)
Record User := mkUser { id : nat; email : string; admin : bool; faculty : bool }.
Record Course := mkCourse { course_id : nat }.

#[global] Instance User_eq_dec : EqDecision User.
Proof. solve_decision. Defined.
#[global] Instance Course_eq_dec : EqDecision Course.
Proof. solve_decision. Defined.

(** Modelled from the spec: the data-access interface (section 6) that the
    SQLAlchemy queries and the [teaching]/[taking] methods of models.py
    provide: the user and course tables and the two relations. *)
Record DB := mkDB {
  db_users : list User;
  db_courses : list Course;
  teaching : User -> Course -> bool;
  taking : User -> Course -> bool
}.

(** [.first()] of a filtered query: the first matching row, if any. *)
Fixpoint first_match {A} (p : A -> bool) (l : list A) : option A :=
  match l with
  | [] => None
  | x :: l' => if p x then Some x else first_match p l'
  end.

(** [User.query.filter_by(email=e).first()]; a missing session email
    ([session.get] returning None) matches no row. *)
Definition find_user_by_email (db : DB) (e : option string) : option User :=
  match e with
  | None => None
  | Some e => first_match (fun u => String.eqb (email u) e) (db_users db)
  end.

(** [Course.query.filter_by(id=c).first()]. *)
Definition find_course (db : DB) (c : nat) : option Course :=
  first_match (fun k => Nat.eqb (course_id k) c) (db_courses db).

(** The values stored in the [context] dict: None, a User or Course row, a
    bool, a Role member, or the [Role] class itself. *)
Inductive Value :=
  | VNone
  | VUser (u : User)
  | VCourse (c : Course)
  | VBool (b : bool)
  | VRole (r : Role)
  | VRoleClass.

#[global] Instance Value_eq_dec : EqDecision Value.
Proof. solve_decision. Defined.

(** Python truthiness; [Role.STUDENT] is the IntEnum 0, hence falsy. *)
Definition truthy (v : Value) : bool :=
  match v with
  | VNone => false
  | VBool b => b
  | VRole r => negb (Nat.eqb (role_value r) 0)
  | _ => true
  end.

(** [a or b]. *)
Definition py_or (a b : Value) : Value := if truthy a then a else b.

Definition user_value (o : option User) : Value :=
  match o with Some u => VUser u | None => VNone end.
Definition course_value (o : option Course) : Value :=
  match o with Some c => VCourse c | None => VNone end.

(** The keyword arguments of [get_context]. *)
Record Kwargs := mkKwargs {
  kw_course_id : option nat;
  kw_login_required : option bool;
  kw_user : option nat;
  kw_min_role : option string
}.

(* ------------------------------------------------------------------ *)
(** ** Exceptions *)

Inductive Exn :=
  | HTTPAbort (code : nat)     (* flask.abort(code) *)
  | NameError (name : string)
  | KeyError (key : string)
  | AttributeError (attr : string)
  | TypeError.

Definition M (A : Type) : Type := (Exn + A)%type.

Definition mret {A} (x : A) : M A := inr x.
Definition mbind {A B} (m : M A) (f : A -> M B) : M B :=
  match m with inl e => inl e | inr x => f x end.

Notation "'let*' x ':=' m 'in' k" := (mbind m (fun x => k))
  (at level 200, x name, m at level 100, k at level 200).
Notation "'let*' ' p ':=' m 'in' k" := (mbind m (fun x => match x with p => k end))
  (at level 200, p pattern, m at level 100, k at level 200).

Definition raise {A} (e : Exn) : M A := inl e.
Definition abort {A} (code : nat) : M A := raise (HTTPAbort code).

(** [context[k]]. *)
Definition getitem (ctx : gmap string Value) (k : string) : M Value :=
  match ctx !! k with Some v => mret v | None => raise (KeyError k) end.

(** [context.get(k, None)]. *)
Definition get_or_none (ctx : gmap string Value) (k : string) : Value :=
  match ctx !! k with Some v => v | None => VNone end.

(** Attribute reads on a User row. *)
Definition attr_admin (v : Value) : M bool :=
  match v with VUser u => mret (admin u) | _ => raise (AttributeError "admin") end.
Definition attr_faculty (v : Value) : M bool :=
  match v with VUser u => mret (faculty u) | _ => raise (AttributeError "faculty") end.
Definition attr_id (v : Value) : M nat :=
  match v with VUser u => mret (id u) | _ => raise (AttributeError "id") end.

(** [viewer.teaching(course)] and [viewer.taking(course)]. *)
Definition call_teaching (db : DB) (v c : Value) : M bool :=
  match v, c with
  | VUser u, VCourse k => mret (teaching db u k)
  | _, _ => raise (AttributeError "teaching")
  end.
Definition call_taking (db : DB) (v c : Value) : M bool :=
  match v, c with
  | VUser u, VCourse k => mret (taking db u k)
  | _, _ => raise (AttributeError "taking")
  end.

(** [Role[name]]. *)
Definition role_getitem (name : string) : M Role :=
  match role_of_name name with Some r => mret r | None => raise (KeyError name) end.

(** [Role[...] > v] for a context value [v]. *)
Definition role_gt (m : Role) (v : Value) : M bool :=
  match v with
  | VRole r => mret (Nat.ltb (role_value r) (role_value m))
  | _ => raise TypeError
  end.

(* ------------------------------------------------------------------ *)
(** ** The resolution steps (src/context.py, lines 19-78) *)

Definition _set_user_context (db : DB) (session_email : option string)
    (context : gmap string Value) : gmap string Value :=
  <["user" := user_value (find_user_by_email db session_email)]> context.

Definition _set_viewer_context (db : DB) (context : gmap string Value)
    (url_args : gmap string string) : M (gmap string Value) :=
  let* u := getitem context "user" in
  let* is_admin := attr_admin u in
  let context :=
    if is_admin then
      match (url_args !! "viewer" : option string) with
      | Some e => <["viewer" := user_value (find_user_by_email db (Some e))]> context
      | None => context
      end
    else context in
  let* context := (if negb (truthy (get_or_none context "viewer")) then
               let* u := getitem context "user" in mret (<["viewer" := u]> context)
             else mret context) in
  let* u := getitem context "user" in
  let* v := getitem context "viewer" in
  mret (<["alternate_view" := VBool (bool_decide (u <> v))]> context).

Definition _set_course_context (db : DB) (kw : Kwargs)
    (context : gmap string Value) : gmap string Value :=
  match kw_course_id kw with
  | Some c => <["course" := course_value (find_course db c)]> context
  | None => context
  end.

Definition _set_instructor_context (db : DB) (context : gmap string Value)
    : M (gmap string Value) :=
  let* v := getitem context "viewer" in
  let* is_admin := attr_admin v in
  if is_admin then mret (<["instructor" := VBool true]> context)
  else if truthy (get_or_none context "course") then
    let* v := getitem context "viewer" in
    let* c := getitem context "course" in
    let* t := call_teaching db v c in
    mret (<["instructor" := VBool t]> context)
  else mret (<["instructor" := VBool false]> context).

Definition _set_student_context (db : DB) (context : gmap string Value)
    : M (gmap string Value) :=
  if truthy (get_or_none context "course") then
    let* v := getitem context "viewer" in
    let* c := getitem context "course" in
    let* t := call_taking db v c in
    mret (<["student" := VBool t]> context)
  else mret (<["student" := VBool false]> context).

(** One branch of the cascade of [_set_role_context] (lines 59-63, 65-69,
    71-75): the three branches differ only in the default name and the
    ceiling. *)
Definition role_branch (context : gmap string Value) (url_args : gmap string string)
    (default_name : string) (ceiling : Role) : M (gmap string Value) :=
  let* requested := role_getitem (upper (default default_name (url_args !! "role"))) in
  let context := <["role" := VRole (role_min requested ceiling)]> context in
  let* alt := getitem context "alternate_view" in
  let* r := getitem context "role" in
  mret (<["alternate_view" := py_or alt (VBool (bool_decide (r <> VRole ceiling)))]> context).

(** Lines 56-57: a [role] URL argument that names no Role member is deleted. *)
Definition discard_invalid_role (url_args : gmap string string) : gmap string string :=
  match (url_args !! "role" : option string) with
  | Some r =>
      if bool_decide (is_Some (role_of_name (upper r))) then url_args
      else delete "role" url_args
  | None => url_args
  end.

Definition _set_role_context (context : gmap string Value) (url_args : gmap string string)
    : M (gmap string Value * gmap string string) :=
  let context := <["Role" := VRoleClass]> context in
  let url_args := discard_invalid_role url_args in
  let* v := getitem context "viewer" in
  let* is_admin := attr_admin v in
  if is_admin then
    let* context := role_branch context url_args "admin" ADMIN in mret (context, url_args)
  else
  let* is_faculty := attr_faculty v in
  if is_faculty then
    let* context := role_branch context url_args "faculty" FACULTY in mret (context, url_args)
  else
  let* i := getitem context "instructor" in
  if truthy i then
    let* context := role_branch context url_args "instructor" INSTRUCTOR in mret (context, url_args)
  else
    let context := <["role" := VRole STUDENT]> context in
    let* alt := getitem context "alternate_view" in
    let* r := getitem context "role" in
    mret (<["alternate_view" := py_or alt (VBool (bool_decide (r <> VRole STUDENT)))]> context,
          url_args).

(* ------------------------------------------------------------------ *)
(** ** [get_context] (src/context.py, lines 81-135) *)

(** Lines 126-135: viewer, course, standing, the standing gate, the role
    and the minimum-role gate. *)
Definition get_context_tail (db : DB) (kw : Kwargs) (context : gmap string Value)
    (url_args : gmap string string) : M (gmap string Value) :=
  let* context := _set_viewer_context db context url_args in
  let context := _set_course_context db kw context in
  let* context := _set_instructor_context db context in
  let* context := _set_student_context db context in
  let* i := getitem context "instructor" in
  let* s := getitem context "student" in
  if negb (truthy (py_or i s)) then abort 403 else
  let* '(context, url_args) := _set_role_context context url_args in
  let* m := role_getitem (upper (default "student" (kw_min_role kw))) in
  let* r := getitem context "role" in
  let* below := role_gt m r in
  if below then abort 403 else mret context.

(** The name [user] read by line 123 ([if not user.admin:]) is bound
    neither in [get_context] nor in the module, which imports [User] but no
    [user]: evaluating it raises NameError. *)
Definition unbound_user : M Value := raise (NameError "user").

(** [get_context(kwargs)]; [request_args] is [request.args], of which
    line 114 takes a fresh copy [url_args]. *)
Definition get_context (db : DB) (session_email : option string)
    (request_args : gmap string string) (kw : Kwargs) : M (gmap string Value) :=
  let url_args := request_args in
  let context := _set_user_context db session_email ∅ in
  if negb (default true (kw_login_required kw)) then mret context else
  let* u := getitem context "user" in
  if negb (truthy u) then abort 401 else
  let* user := unbound_user in
  let* user_admin := attr_admin user in
  let* _ := (if negb user_admin then
         match kw_user kw with
         | Some want =>
             let* u := getitem context "user" in
             let* uid := attr_id u in
             if negb (Nat.eqb want uid) then abort 403 else mret tt
         | None => mret tt
         end
       else mret tt) in
  get_context_tail db kw context url_args.

(* ------------------------------------------------------------------ *)
(** ** Reference definitions and a sample database *)

(** Spec 4.6, following its words: the true ceiling of a viewer, by the
    cascade admin / faculty / scoped instructor standing / student. *)
Definition trueCeiling (v : User) (instructor : bool) : Role :=
  if admin v then ADMIN
  else if faculty v then FACULTY
  else if instructor then INSTRUCTOR
  else STUDENT.

(** The course in scope after [_set_course_context]. *)
Definition course_in_scope (db : DB) (kw : Kwargs) : option Course :=
  match kw_course_id kw with Some k => find_course db k | None => None end.

(** The context part of a [_set_role_context] result. *)
Definition context_of {B} (m : M (gmap string Value * B)) : M (gmap string Value) :=
  let* p := m in mret p.1.

(* ------------------------------------------------------------------ *)
(** ** The views of src/routes.py that use the session principal *)

Module Routes.

(** Modelled from the spec: the Assignment, Question and QuestionFile
    tables of models.py (not in src/); routes.py only dumps their rows,
    represented here by their ids. *)
Record Tables := mkTables {
  tb_db : DB;
  tb_assignments : list nat;
  tb_questions : list nat;
  tb_question_files : list nat
}.

(** The dict built by [routes.get_context]. *)
Record RouteContext := mkRouteContext {
  rc_user : User;
  rc_users : list User;
  rc_courses : list Course;
  rc_assignments : list nat;
  rc_questions : list nat;
  rc_question_files : list nat
}.

(** A view's response: a redirect to an endpoint ([url_for]), a rendered
    template with its context, or an exception no handler catches. *)
Inductive Response :=
  | Redirect (endpoint : string)
  | Render (template : string) (context : option RouteContext)
  | Failure (e : Exn).

(** [get_user()]: [User.query.filter(User.email == user_email).first()]. *)
Definition get_user (db : DB) (session_email : option string) : option User :=
  find_user_by_email db session_email.

(** [get_context()] of routes.py (lines 16-30). *)
Definition get_context (tb : Tables) (session_email : option string) : M RouteContext :=
  match get_user (tb_db tb) session_email with
  | None => abort 401
  | Some user =>
      mret (mkRouteContext user (db_users (tb_db tb)) (db_courses (tb_db tb))
              (tb_assignments tb) (tb_questions tb) (tb_question_files tb))
  end.

(** [unauthorized_error]: the blueprint's handler of 401. *)
Definition unauthorized_error : Response := Redirect "demograder.root".

(** Flask's dispatch of a blueprint view: a 401 abort goes to
    [unauthorized_error], any other exception is not handled. *)
Definition handle (r : M Response) : Response :=
  match r with
  | inr resp => resp
  | inl (HTTPAbort 401) => unauthorized_error
  | inl e => Failure e
  end.

(** [root()] (lines 33-38). *)
Definition root (tb : Tables) (session_email : option string) : M Response :=
  match get_user (tb_db tb) session_email with
  | Some _ => mret (Redirect "demograder.home")
  | None => mret (Render "index.html" None)
  end.

(** [home()] (lines 41-44). *)
Definition home (tb : Tables) (session_email : option string) : M Response :=
  let* context := get_context tb session_email in
  mret (Render "home.html" (Some context)).

End Routes.

(** A small database: [alice] is a plain user taking course 7, [root] an
    admin teaching and taking nothing, [fac] a faculty member teaching
    course 7. *)
Definition alice : User := mkUser 1 "alice@x.edu" false false.
Definition root : User := mkUser 2 "root@x.edu" true false.
Definition fac : User := mkUser 3 "fac@x.edu" false true.
Definition bob : User := mkUser 4 "bob@x.edu" false false.

Definition sample_db : DB :=
  mkDB [alice; root; fac; bob] [mkCourse 7; mkCourse 9]
    (fun u c => Nat.eqb (id u) 3 && Nat.eqb (course_id c) 7)
    (fun u c => Nat.eqb (id u) 1 && Nat.eqb (course_id c) 7).

(* ------------------------------------------------------------------ *)
(** ** Lemmas on the steps *)

Ltac lookup_simpl :=
  repeat first [ rewrite lookup_insert_eq | rewrite lookup_insert_ne by done
               | rewrite lookup_delete_eq | rewrite lookup_delete_ne by done ].

Lemma role_min_le (a b : Role) : role_value (role_min a b) <= role_value b.
Proof. destruct a, b; cbv; lia. Qed.

Lemma role_value_0 (r : Role) : role_value r <= 0 -> r = STUDENT.
Proof. destruct r; simpl; intros; first [done | lia]. Qed.

Lemma find_user_ext (db1 db2 : DB) e :
  db_users db1 = db_users db2 -> find_user_by_email db1 e = find_user_by_email db2 e.
Proof. intros H. unfold find_user_by_email. by rewrite H. Qed.


Ltac step := cbn [mbind mret raise attr_admin attr_faculty truthy user_value negb default].

(** Viewer resolution: the viewer is some user, and [alternate_view]
    records whether it differs from the principal. *)
Lemma viewer_step (db : DB) (ctx : gmap string Value) (args : gmap string string) (u : User) :
  ctx !! "user" = Some (VUser u) -> ctx !! "viewer" = None ->
  exists v, _set_viewer_context db ctx args
    = inr (<["alternate_view" := VBool (bool_decide (VUser u <> VUser v))]>
             (<["viewer" := VUser v]> ctx)).
Proof.
  intros Hu Hv. unfold _set_viewer_context, getitem, get_or_none. rewrite Hu. step.
  destruct (admin u); [destruct (args !! "viewer") as [e|] |].
  - destruct (find_user_by_email db (Some e)) as [w|];
      do 3 (step; lookup_simpl; rewrite ?Hu).
    + by exists w.
    + exists u. by rewrite insert_insert_eq.
  - rewrite Hv. do 3 (step; lookup_simpl; rewrite ?Hu). by exists u.
  - rewrite Hv. do 3 (step; lookup_simpl; rewrite ?Hu). by exists u.
Qed.

Lemma role_branch_spec ctx args d c ctx' :
  role_branch ctx args d c = inr ctx' ->
  exists req alt, ctx !! "alternate_view" = Some alt /\
    ctx' = <["alternate_view" := py_or alt (VBool (bool_decide (VRole (role_min req c) <> VRole c)))]>
             (<["role" := VRole (role_min req c)]> ctx).
Proof.
  unfold role_branch, getitem.
  destruct (role_getitem _) as [e|req]; step; [discriminate|].
  lookup_simpl. destruct (ctx !! "alternate_view") as [alt|]; step; [|discriminate].
  lookup_simpl. step. intros [= <-]. eauto.
Qed.

Lemma role_step ctx args v i ctx' args' :
  ctx !! "viewer" = Some (VUser v) -> ctx !! "instructor" = Some i ->
  _set_role_context ctx args = inr (ctx', args') ->
  exists r alt,
    role_value r <= role_value (trueCeiling v (truthy i)) /\
    ctx !! "alternate_view" = Some alt /\
    ctx' = <["alternate_view" := py_or alt (VBool (bool_decide (VRole r <> VRole (trueCeiling v (truthy i)))))]>
             (<["role" := VRole r]> (<["Role" := VRoleClass]> ctx)).
Proof.
  intros Hv Hi. unfold _set_role_context, getitem. lookup_simpl. rewrite Hv. step.
  unfold trueCeiling.
  destruct (admin v); [|destruct (faculty v)]; step;
    [| | lookup_simpl; rewrite Hi; step; destruct (truthy i)].
  1-3: destruct (role_branch _ _ _ _) as [e|c] eqn:Hb; step; [discriminate|];
       intros [= <- <-]; apply role_branch_spec in Hb as (req & alt & Ha & ->);
       rewrite lookup_insert_ne in Ha by done;
       do 2 eexists; split; [apply role_min_le|]; split; [exact Ha|]; done.
  lookup_simpl. destruct (ctx !! "alternate_view") as [alt|] eqn:Ha; step; [|discriminate].
  lookup_simpl. step. intros [= <- <-]. exists STUDENT, alt. split; [done|]. split; [done|]. done.
Qed.

Lemma instructor_step db kw c1 v :
  c1 !! "viewer" = Some (VUser v) -> c1 !! "course" = None ->
  _set_instructor_context db (_set_course_context db kw c1)
  = inr (<["instructor" := VBool (if admin v then true else
             match course_in_scope db kw with Some c => teaching db v c | None => false end)]>
           (_set_course_context db kw c1)).
Proof.
  intros Hv Hc. unfold course_in_scope, _set_course_context, _set_instructor_context, getitem, get_or_none.
  destruct (kw_course_id kw) as [k|]; [destruct (find_course db k) as [c|]|];
    lookup_simpl; rewrite ?Hv, ?Hc; step; destruct (admin v); step; lookup_simpl; rewrite ?Hv; done.
Qed.

Lemma student_step db kw c1 v b :
  c1 !! "viewer" = Some (VUser v) -> c1 !! "course" = None ->
  _set_student_context db (<["instructor" := VBool b]> (_set_course_context db kw c1))
  = inr (<["student" := VBool (match course_in_scope db kw with Some c => taking db v c | None => false end)]>
           (<["instructor" := VBool b]> (_set_course_context db kw c1))).
Proof.
  intros Hv Hc. unfold course_in_scope, _set_course_context, _set_student_context, getitem, get_or_none.
  destruct (kw_course_id kw) as [k|]; [destruct (find_course db k) as [c|]|];
    lookup_simpl; rewrite ?Hv, ?Hc; step; lookup_simpl; rewrite ?Hv; done.
Qed.

Lemma discard_valid args r :
  is_Some (role_of_name (upper r)) ->
  discard_invalid_role (<["role" := r]> args) = <["role" := r]> args.
Proof.
  intros H. unfold discard_invalid_role. lookup_simpl. by rewrite bool_decide_eq_true_2.
Qed.

Lemma discard_invalid args r :
  role_of_name (upper r) = None ->
  discard_invalid_role (<["role" := r]> args) = delete "role" args.
Proof.
  intros H. unfold discard_invalid_role. lookup_simpl. rewrite H, bool_decide_eq_false_2.
  - by rewrite delete_insert_eq.
  - by intros [].
Qed.

(** After [discard_invalid_role], the role name read by the cascade parses. *)
Lemma discard_parses args d :
  is_Some (role_of_name (upper d)) ->
  is_Some (role_of_name (upper (default d (discard_invalid_role args !! "role")))).
Proof.
  intros Hd. unfold discard_invalid_role.
  destruct (args !! "role") as [r|] eqn:Hr; simpl; [|by rewrite Hr].
  case_bool_decide as Hv; [by rewrite Hr|]. by rewrite lookup_delete_eq.
Qed.

Lemma role_branch_total ctx args d c alt :
  is_Some (role_of_name (upper (default d (args !! "role")))) ->
  ctx !! "alternate_view" = Some alt ->
  exists ctx', role_branch ctx args d c = inr ctx'.
Proof.
  intros [r Hr] Ha. unfold role_branch, role_getitem, getitem. rewrite Hr. step.
  lookup_simpl. rewrite Ha. step. lookup_simpl. step. eauto.
Qed.

Lemma role_branch_upper ctx a1 a2 d c :
  (forall d, upper (default d (a1 !! "role")) = upper (default d (a2 !! "role"))) ->
  role_branch ctx a1 d c = role_branch ctx a2 d c.
Proof. intros H. unfold role_branch. by rewrite H. Qed.

Lemma role_context_upper ctx a1 a2 :
  (forall d, upper (default d (discard_invalid_role a1 !! "role"))
             = upper (default d (discard_invalid_role a2 !! "role"))) ->
  context_of (_set_role_context ctx a1) = context_of (_set_role_context ctx a2).
Proof.
  intros H. unfold _set_role_context, context_of, getitem.
  rewrite !(role_branch_upper _ _ _ _ _ H).
  destruct (<["Role":=VRoleClass]> ctx !! "viewer") as [w|]; step; [|done].
  destruct (attr_admin w) as [|[]]; step; [done| |].
  - destruct (role_branch _ _ _ _); done.
  - destruct (attr_faculty w) as [|[]]; step; [done| |].
    + destruct (role_branch _ _ _ _); done.
    + destruct (<["Role":=VRoleClass]> ctx !! "instructor") as [i|]; step; [|done].
      destruct (truthy i); [destruct (role_branch _ _ _ _); done|].
      destruct (_ !! "alternate_view"); step; [|done]. lookup_simpl. done.
Qed.

(** Every login-required request with a resolved principal reaches line
    123 and raises NameError there. *)
Lemma get_context_logged_in_raises db session_email args kw u :
  default true (kw_login_required kw) = true ->
  find_user_by_email db session_email = Some u ->
  get_context db session_email args kw = inl (NameError "user").
Proof.
  intros Hl Hu. unfold get_context, _set_user_context, getitem. rewrite Hl, Hu. step.
  by rewrite lookup_insert_eq.
Qed.

(* ------------------------------------------------------------------ *)
(** ** Claims *)

(** C1: the specific-user gate.  The gate of lines 123-125
    reads the unbound name [user], so a logged-in non-admin [alice]
    (id 1) on an endpoint configured with [user=4] gets NameError instead
    of a 403 abort, and an admin [root] gets NameError instead of passing
    the gate. *)
Theorem get_context_identity_gate_nameerror :
  get_context sample_db (Some "alice@x.edu") ∅ (mkKwargs None None (Some 4) None)
    = inl (NameError "user") /\
  get_context sample_db (Some "root@x.edu") ∅ (mkKwargs None None (Some 4) None)
    = inl (NameError "user").
Proof. split; vm_compute; reflexivity. Qed.

(** C2: for a non-admin principal whose context has no viewer yet (as in
    [get_context]), viewer resolution sets the viewer to the principal
    itself, whatever the URL arguments, and [alternate_view] to false. *)
Theorem viewer_is_user_for_non_admin (db : DB) (ctx : gmap string Value)
    (args : gmap string string) (u : User) :
  ctx !! "user" = Some (VUser u) -> ctx !! "viewer" = None -> admin u = false ->
  _set_viewer_context db ctx args
    = inr (<["alternate_view" := VBool false]> (<["viewer" := VUser u]> ctx)).
Proof.
  intros Hu Hv Ha. unfold _set_viewer_context, getitem, get_or_none. rewrite Hu. step.
  rewrite Ha, Hv. step. lookup_simpl. rewrite Hu. step. lookup_simpl. rewrite Hu. step.
  rewrite bool_decide_eq_false_2; [done | by intros []].
Qed.

Lemma viewer_is_user_for_non_admin_witness :
  let ctx : gmap string Value := {["user" := VUser alice]} in
  ctx !! "user" = Some (VUser alice) /\ ctx !! "viewer" = None /\ admin alice = false /\
  _set_viewer_context sample_db ctx {["viewer" := "root@x.edu"]}
    = inr (<["alternate_view" := VBool false]> (<["viewer" := VUser alice]> ctx)).
Proof.
  intros ctx. split; [reflexivity|]. split; [reflexivity|]. split; [reflexivity|].
  apply (viewer_is_user_for_non_admin sample_db ctx _ alice); reflexivity.
Defined.

(** C3: whenever role resolution completes, the effective role is at most
    the viewer's true ceiling (admin / faculty / instructor standing /
    student), and is STUDENT when that ceiling is STUDENT. *)
Theorem effective_role_within_ceiling (ctx : gmap string Value) (args : gmap string string)
    (v : User) (i : Value) ctx' args' :
  ctx !! "viewer" = Some (VUser v) -> ctx !! "instructor" = Some i ->
  _set_role_context ctx args = inr (ctx', args') ->
  exists r, ctx' !! "role" = Some (VRole r) /\
    role_value r <= role_value (trueCeiling v (truthy i)) /\
    (trueCeiling v (truthy i) = STUDENT -> r = STUDENT).
Proof.
  intros Hv Hi Hr. destruct (role_step _ _ _ _ _ _ Hv Hi Hr) as (r & alt & Hle & _ & ->).
  exists r. lookup_simpl. split; [done|]. split; [done|].
  intros Hc. rewrite Hc in Hle. by apply role_value_0.
Qed.

Lemma effective_role_within_ceiling_witness :
  let ctx : gmap string Value :=
    {["viewer" := VUser fac; "instructor" := VBool true; "alternate_view" := VBool false]} in
  ctx !! "viewer" = Some (VUser fac) /\ ctx !! "instructor" = Some (VBool true) /\
  exists ctx' args', _set_role_context ctx {["role" := "Admin"]} = inr (ctx', args') /\
  exists r, ctx' !! "role" = Some (VRole r) /\
    role_value r <= role_value (trueCeiling fac (truthy (VBool true))) /\
    (trueCeiling fac (truthy (VBool true)) = STUDENT -> r = STUDENT).
Proof.
  intros ctx. split; [reflexivity|]. split; [reflexivity|].
  destruct (_set_role_context ctx {["role" := "Admin"]}) as [e|[ctx' args']] eqn:H;
    [discriminate H|].
  exists ctx', args'. split; [reflexivity|].
  apply (effective_role_within_ceiling ctx {["role" := "Admin"]} fac (VBool true) ctx' args');
    [reflexivity | reflexivity | exact H].
Defined.

Lemma course_context_ne db kw (c : gmap string Value) k :
  k <> "course" -> _set_course_context db kw c !! k = c !! k.
Proof.
  intros Hk. unfold _set_course_context. destruct (kw_course_id kw); [|done].
  by rewrite lookup_insert_ne by congruence.
Qed.

Lemma py_or_bool a b : py_or (VBool a) (VBool b) = VBool (a || b).
Proof. by destruct a. Qed.

Lemma bool_decide_role_ne (r c : Role) :
  bool_decide (VRole r <> VRole c) = bool_decide (r <> c).
Proof. apply bool_decide_ext. split; congruence. Qed.

(** C4: over the resolution steps of [get_context] (viewer, course,
    instructor, student, role), the final [alternate_view] is true exactly
    when the viewer differs from the principal or the effective role
    differs from the viewer's true ceiling. *)
Theorem alternate_view_iff db kw (u : User) (args : gmap string string) c1 c3 c4 c5 a5 :
  _set_viewer_context db {["user" := VUser u]} args = inr c1 ->
  _set_instructor_context db (_set_course_context db kw c1) = inr c3 ->
  _set_student_context db c3 = inr c4 ->
  _set_role_context c4 args = inr (c5, a5) ->
  exists v i r,
    c5 !! "viewer" = Some (VUser v) /\ c5 !! "instructor" = Some (VBool i) /\
    c5 !! "role" = Some (VRole r) /\
    c5 !! "alternate_view"
      = Some (VBool (bool_decide (VUser u <> VUser v) || bool_decide (r <> trueCeiling v i))).
Proof.
  intros H1 H3 H4 H5.
  destruct (viewer_step db {["user" := VUser u]} args u) as [v Hv];
    [by rewrite lookup_singleton_eq | by rewrite lookup_singleton_ne |].
  rewrite Hv in H1. injection H1 as H1.
  assert (Hc1v : c1 !! "viewer" = Some (VUser v)) by (subst c1; by lookup_simpl).
  assert (Hc1c : c1 !! "course" = None)
    by (subst c1; lookup_simpl; by rewrite lookup_singleton_ne).
  rewrite (instructor_step db kw c1 v Hc1v Hc1c) in H3. injection H3 as H3. subst c3.
  rewrite (student_step db kw c1 v _ Hc1v Hc1c) in H4. injection H4 as H4.
  set (ib := if admin v then true else
               match course_in_scope db kw with Some c => teaching db v c | None => false end) in *.
  assert (Hc4v : c4 !! "viewer" = Some (VUser v))
    by (subst c4; lookup_simpl; by rewrite course_context_ne).
  assert (Hc4i : c4 !! "instructor" = Some (VBool ib)) by (subst c4; by lookup_simpl).
  assert (Hc4a : c4 !! "alternate_view" = Some (VBool (bool_decide (VUser u <> VUser v))))
    by (subst c4; lookup_simpl; rewrite course_context_ne by done; subst c1; by lookup_simpl).
  destruct (role_step _ _ _ _ _ _ Hc4v Hc4i H5) as (r & alt & _ & Ha & ->).
  rewrite Hc4a in Ha. injection Ha as <-.
  exists v, ib, r. lookup_simpl. rewrite Hc4v, Hc4i.
  split; [done|]. split; [done|]. split; [done|].
  by rewrite py_or_bool, bool_decide_role_ne.
Qed.

Lemma alternate_view_iff_witness :
  exists c1 c3 c4 c5 a5,
    _set_viewer_context sample_db {["user" := VUser root]} {["viewer" := "fac@x.edu"]} = inr c1 /\
    _set_instructor_context sample_db (_set_course_context sample_db (mkKwargs (Some 7) None None None) c1) = inr c3 /\
    _set_student_context sample_db c3 = inr c4 /\
    _set_role_context c4 {["viewer" := "fac@x.edu"]} = inr (c5, a5) /\
    exists v i r,
      c5 !! "viewer" = Some (VUser v) /\ c5 !! "instructor" = Some (VBool i) /\
      c5 !! "role" = Some (VRole r) /\
      c5 !! "alternate_view"
        = Some (VBool (bool_decide (VUser root <> VUser v) || bool_decide (r <> trueCeiling v i))).
Proof.
  destruct (_set_viewer_context sample_db {["user" := VUser root]} {["viewer" := "fac@x.edu"]})
    as [e|c1] eqn:H1; [discriminate H1|].
  destruct (_set_instructor_context sample_db (_set_course_context sample_db (mkKwargs (Some 7) None None None) c1))
    as [e|c3] eqn:H3; [injection H1 as <-; discriminate H3|].
  destruct (_set_student_context sample_db c3) as [e|c4] eqn:H4;
    [injection H1 as <-; injection H3 as <-; discriminate H4|].
  destruct (_set_role_context c4 {["viewer" := "fac@x.edu"]}) as [e|[c5 a5]] eqn:H5;
    [injection H1 as <-; injection H3 as <-; injection H4 as <-; discriminate H5|].
  exists c1, c3, c4, c5, a5. split; [reflexivity|]. split; [exact H3|]. split; [exact H4|].
  split; [exact H5|].
  exact (alternate_view_iff sample_db (mkKwargs (Some 7) None None None) root _ c1 c3 c4 c5 a5 H1 H3 H4 H5).
Defined.

(** C5: standing resolution.  [instructor] is true for an admin viewer
    whatever the scope, and otherwise is [teaching] of the course in scope
    (false without one); [student] is [taking] of the course in scope
    (false without one), with no admin short-circuit.  An admin viewer
    always passes the standing gate. *)
Theorem standing_resolution db kw (c1 : gmap string Value) (v : User) :
  c1 !! "viewer" = Some (VUser v) -> c1 !! "course" = None ->
  let ctx := _set_course_context db kw c1 in
  let inst := if admin v then true else
                match course_in_scope db kw with Some c => teaching db v c | None => false end in
  let stud := match course_in_scope db kw with Some c => taking db v c | None => false end in
  _set_instructor_context db ctx = inr (<["instructor" := VBool inst]> ctx) /\
  (let* c := _set_instructor_context db ctx in _set_student_context db c)
    = inr (<["student" := VBool stud]> (<["instructor" := VBool inst]> ctx)) /\
  (admin v = true -> inst = true /\ truthy (py_or (VBool inst) (VBool stud)) = true).
Proof.
  intros Hv Hc ctx inst stud.
  assert (Hi : _set_instructor_context db ctx = inr (<["instructor" := VBool inst]> ctx))
    by exact (instructor_step db kw c1 v Hv Hc).
  split; [exact Hi|]. split.
  - rewrite Hi. exact (student_step db kw c1 v inst Hv Hc).
  - intros Ha. subst inst. rewrite Ha. done.
Qed.

(** Scenario C of the spec: the admin [root], teaching and taking nothing,
    on course 7. *)
Lemma standing_resolution_witness :
  let c1 : gmap string Value :=
    {["user" := VUser root; "viewer" := VUser root; "alternate_view" := VBool false]} in
  let kw := mkKwargs (Some 7) None None None in
  c1 !! "viewer" = Some (VUser root) /\ c1 !! "course" = None /\
  course_in_scope sample_db kw = Some (mkCourse 7) /\
  teaching sample_db root (mkCourse 7) = false /\ taking sample_db root (mkCourse 7) = false /\
  (let ctx := _set_course_context sample_db kw c1 in
   (let* c := _set_instructor_context sample_db ctx in _set_student_context sample_db c)
     = inr (<["student" := VBool false]> (<["instructor" := VBool true]> ctx)) /\
   truthy (py_or (VBool true) (VBool false)) = true).
Proof.
  intros c1 kw. do 5 (split; [reflexivity|]).
  destruct (standing_resolution sample_db kw c1 root) as (_ & H & Hg); [reflexivity|reflexivity|].
  split; [exact H|]. exact (proj2 (Hg eq_refl)).
Defined.

(** C6: the standing gate.  [bob] is a plain user with no
    relation to course 7.  [get_context] raises NameError at line 123
    before reaching the standing gate, whatever the role argument; lines
    126-135 alone would abort with 403 at the standing gate. *)
Theorem get_context_standing_gate_nameerror :
  let kw := mkKwargs (Some 7) None None (Some "instructor") in
  get_context sample_db (Some "bob@x.edu") {["role" := "student"]} kw = inl (NameError "user") /\
  get_context_tail sample_db kw {["user" := VUser bob]} {["role" := "student"]}
    = inl (HTTPAbort 403).
Proof. split; vm_compute; reflexivity. Qed.

(** C7: role-name parsing.  Whenever the viewer, instructor and
    alternate-view entries are present, role resolution raises nothing for
    any URL arguments; an unparseable [role] argument is the same as none
    (the branch default is used); and the role argument is read through
    [upper], so its case does not matter. *)
Theorem role_name_parsing (ctx : gmap string Value) (args : gmap string string)
    (v : User) (i alt : Value) :
  ctx !! "viewer" = Some (VUser v) -> ctx !! "instructor" = Some i ->
  ctx !! "alternate_view" = Some alt ->
  (exists c a, _set_role_context ctx args = inr (c, a)) /\
  (forall r, args !! "role" = Some r -> role_of_name (upper r) = None ->
     _set_role_context ctx args = _set_role_context ctx (delete "role" args)) /\
  (forall r1 r2, upper r1 = upper r2 ->
     context_of (_set_role_context ctx (<["role" := r1]> args))
     = context_of (_set_role_context ctx (<["role" := r2]> args))).
Proof.
  intros Hv Hi Ha. split; [|split].
  - unfold _set_role_context, getitem. lookup_simpl. rewrite Hv. step.
    assert (Ha' : <["Role" := VRoleClass]> ctx !! "alternate_view" = Some alt) by (by lookup_simpl).
    destruct (admin v); [|destruct (faculty v)]; step;
      [| | lookup_simpl; rewrite Hi; step; destruct (truthy i)].
    1-3: edestruct role_branch_total as [c' ->];
         [apply discard_parses; cbv; eauto | exact Ha' | step; eauto].
    lookup_simpl. rewrite Ha. step. lookup_simpl. step. eauto.
  - intros r Hr Hn. unfold _set_role_context.
    assert (Hd : discard_invalid_role args = delete "role" args).
    { unfold discard_invalid_role. rewrite Hr, bool_decide_eq_false_2; [done|].
      rewrite Hn. by intros []. }
    assert (Hd' : discard_invalid_role (delete "role" args) = delete "role" args).
    { unfold discard_invalid_role. by rewrite lookup_delete_eq. }
    by rewrite Hd, Hd'.
  - intros r1 r2 Hu. apply role_context_upper. intros d.
    destruct (role_of_name (upper r1)) as [x|] eqn:H1.
    + rewrite (discard_valid args r1), (discard_valid args r2); [|first [rewrite H1 | rewrite <- Hu, H1]; eauto..].
      lookup_simpl. exact Hu.
    + rewrite (discard_invalid args r1), (discard_invalid args r2); [done|first [exact H1 | rewrite <- Hu; exact H1]..].
Qed.

Lemma role_name_parsing_witness :
  let ctx : gmap string Value :=
    {["viewer" := VUser fac; "instructor" := VBool false; "alternate_view" := VBool false]} in
  ctx !! "viewer" = Some (VUser fac) /\ ctx !! "instructor" = Some (VBool false) /\
  ctx !! "alternate_view" = Some (VBool false) /\
  _set_role_context ctx {["role" := "superuser"]} = _set_role_context ctx (delete "role" {["role" := "superuser"]}) /\
  context_of (_set_role_context ctx {["role" := "Student"]})
    = context_of (_set_role_context ctx {["role" := "STUDENT"]}).
Proof.
  intros ctx.
  destruct (role_name_parsing ctx ∅ fac (VBool false) (VBool false)) as (_ & _ & Hc);
    [reflexivity | reflexivity | reflexivity |].
  destruct (role_name_parsing ctx {["role" := "superuser"]} fac (VBool false) (VBool false))
    as (_ & Hd & _); [reflexivity | reflexivity | reflexivity |].
  do 3 (split; [reflexivity|]). split.
  - apply (Hd "superuser"); reflexivity.
  - rewrite <- !insert_empty. apply Hc. reflexivity.
Defined.

(** C8: determinism.  Two runs with the same session email, URL
    arguments and keyword arguments, over backing data with the same user
    and course rows and the same teaching/taking relations, give the same
    outcome (context, abort status or raised exception), both for
    [get_context] and for its lines 126-135. *)
Theorem get_context_deterministic (db1 db2 : DB) session_email
    (args : gmap string string) kw :
  db_users db1 = db_users db2 -> db_courses db1 = db_courses db2 ->
  (forall u c, teaching db1 u c = teaching db2 u c) ->
  (forall u c, taking db1 u c = taking db2 u c) ->
  get_context db1 session_email args kw = get_context db2 session_email args kw /\
  (forall ctx, get_context_tail db1 kw ctx args = get_context_tail db2 kw ctx args).
Proof.
  destruct db1 as [us1 cs1 te1 ta1], db2 as [us2 cs2 te2 ta2]; simpl.
  intros -> -> Hte Hta.
  assert (te1 = te2) as ->.
  { apply functional_extensionality; intros u. apply functional_extensionality; intros c. apply Hte. }
  assert (ta1 = ta2) as ->.
  { apply functional_extensionality; intros u. apply functional_extensionality; intros c. apply Hta. }
  done.
Qed.

Lemma get_context_deterministic_witness :
  let db2 := mkDB [alice; root; fac; bob] [mkCourse 7; mkCourse 9]
               (fun u c => Nat.eqb (course_id c) 7 && Nat.eqb (id u) 3)
               (fun u c => Nat.eqb (course_id c) 7 && Nat.eqb (id u) 1) in
  (forall u c, teaching sample_db u c = teaching db2 u c) /\
  (forall u c, taking sample_db u c = taking db2 u c) /\
  get_context sample_db (Some "fac@x.edu") ∅ (mkKwargs (Some 7) None None None)
    = get_context db2 (Some "fac@x.edu") ∅ (mkKwargs (Some 7) None None None).
Proof.
  intros db2.
  assert (Hte : forall u c, teaching sample_db u c = teaching db2 u c)
    by (intros; apply andb_comm).
  assert (Hta : forall u c, taking sample_db u c = taking db2 u c)
    by (intros; apply andb_comm).
  split; [exact Hte|]. split; [exact Hta|].
  exact (proj1 (get_context_deterministic sample_db db2 _ _ _ eq_refl eq_refl Hte Hta)).
Defined.

(** C9: when the endpoint sets [login_required] to false, [get_context]
    returns at once a context holding only the resolved principal (None
    when there is none). *)
Theorem login_not_required_returns_principal (db : DB) session_email
    (args : gmap string string) kw :
  kw_login_required kw = Some false ->
  get_context db session_email args kw
    = inr {["user" := user_value (find_user_by_email db session_email)]}.
Proof.
  intros H. unfold get_context, _set_user_context. rewrite H. step.
  by rewrite insert_empty.
Qed.

Lemma login_not_required_returns_principal_witness :
  kw_login_required (mkKwargs (Some 7) (Some false) (Some 2) (Some "admin")) = Some false /\
  get_context sample_db None {["viewer" := "root@x.edu"; "role" := "admin"]}
    (mkKwargs (Some 7) (Some false) (Some 2) (Some "admin"))
    = inr {["user" := VNone]}.
Proof.
  split; [reflexivity|].
  exact (login_not_required_returns_principal sample_db None {["viewer" := "root@x.edu"; "role" := "admin"]}
           (mkKwargs (Some 7) (Some false) (Some 2) (Some "admin")) eq_refl).
Defined.

(** C10: no course in scope.  The faculty member [fac] (not
    an admin) on an endpoint without a course id: [get_context] raises
    NameError at line 123 instead of aborting with 403 at the standing
    gate; lines 126-135 alone do abort with 403 there. *)
Theorem get_context_no_course_nameerror :
  let kw := mkKwargs None None None None in
  get_context sample_db (Some "fac@x.edu") {["role" := "faculty"]} kw = inl (NameError "user") /\
  get_context_tail sample_db kw {["user" := VUser fac]} {["role" := "faculty"]}
    = inl (HTTPAbort 403).
Proof. split; vm_compute; reflexivity. Qed.

(* ------------------------------------------------------------------ *)
(** ** Further lemmas on the resolution pipeline *)

(** The viewer chosen by [_set_viewer_context] for a principal [u]. *)
Lemma viewer_resolved (db : DB) (ctx : gmap string Value) (args : gmap string string) (u : User) :
  ctx !! "user" = Some (VUser u) -> ctx !! "viewer" = None ->
  let w := if admin u then
             match args !! "viewer" with
             | Some e => default u (find_user_by_email db (Some e))
             | None => u
             end
           else u in
  _set_viewer_context db ctx args
    = inr (<["alternate_view" := VBool (bool_decide (VUser u <> VUser w))]>
             (<["viewer" := VUser w]> ctx)).
Proof.
  intros Hu Hv w. subst w. unfold _set_viewer_context, getitem, get_or_none. rewrite Hu. step.
  destruct (admin u); [destruct (args !! "viewer") as [e|] |].
  - destruct (find_user_by_email db (Some e)) as [x|];
      do 3 (step; lookup_simpl; rewrite ?Hu); [done|].
    by rewrite insert_insert_eq.
  - rewrite Hv. do 3 (step; lookup_simpl; rewrite ?Hu). done.
  - rewrite Hv. do 3 (step; lookup_simpl; rewrite ?Hu). done.
Qed.

(** Role resolution never raises once the viewer, the instructor standing
    and the alternate-view flag are in the context. *)
Lemma role_context_total (ctx : gmap string Value) (args : gmap string string)
    (v : User) (i alt : Value) :
  ctx !! "viewer" = Some (VUser v) -> ctx !! "instructor" = Some i ->
  ctx !! "alternate_view" = Some alt ->
  exists c a, _set_role_context ctx args = inr (c, a).
Proof.
  intros Hv Hi Ha. unfold _set_role_context, getitem. lookup_simpl. rewrite Hv. step.
  assert (Ha' : <["Role" := VRoleClass]> ctx !! "alternate_view" = Some alt) by (by lookup_simpl).
  destruct (admin v); [|destruct (faculty v)]; step;
    [| | lookup_simpl; rewrite Hi; step; destruct (truthy i)].
  1-3: edestruct role_branch_total as [c' ->];
       [apply discard_parses; cbv; eauto | exact Ha' | step; eauto].
  lookup_simpl. rewrite Ha. step. lookup_simpl. step. eauto.
Qed.

(** Lines 126-131 of [get_context] from the context [{user: u}]: the
    viewer, the course, the standing and the standing gate, with what
    remains after it. *)
Lemma pipeline_shape db kw (u : User) (args : gmap string string) :
  let v := if admin u then
             match args !! "viewer" with
             | Some e => default u (find_user_by_email db (Some e))
             | None => u
             end
           else u in
  let c1 := <["alternate_view" := VBool (bool_decide (VUser u <> VUser v))]>
              (<["viewer" := VUser v]> ({["user" := VUser u]} : gmap string Value)) in
  let i := if admin v then true else
             match course_in_scope db kw with Some c => teaching db v c | None => false end in
  let s := match course_in_scope db kw with Some c => taking db v c | None => false end in
  let c4 := <["student" := VBool s]> (<["instructor" := VBool i]> (_set_course_context db kw c1)) in
  get_context_tail db kw {["user" := VUser u]} args =
    if negb (i || s) then abort 403 else
    (let* '(context, url_args) := _set_role_context c4 args in
     let* m := role_getitem (upper (default "student" (kw_min_role kw))) in
     let* r := getitem context "role" in
     let* below := role_gt m r in
     if below then abort 403 else mret context).
Proof.
  intros v c1 i s c4. unfold get_context_tail.
  rewrite (viewer_resolved db {["user" := VUser u]} args u);
    [| by rewrite lookup_singleton_eq | by rewrite lookup_singleton_ne]. step.
  fold v. fold c1.
  assert (Hc1v : c1 !! "viewer" = Some (VUser v)) by (subst c1; by lookup_simpl).
  assert (Hc1c : c1 !! "course" = None)
    by (subst c1; lookup_simpl; by rewrite lookup_singleton_ne).
  rewrite (instructor_step db kw c1 v Hc1v Hc1c). step. fold i.
  rewrite (student_step db kw c1 v i Hc1v Hc1c). step. fold s. fold c4.
  unfold getitem. subst c4. lookup_simpl. step. by rewrite py_or_bool.
Qed.

Tactic Notation "step" "in" hyp(H) :=
  cbn [mbind mret raise attr_admin attr_faculty truthy user_value negb default role_gt] in H.

(** Lines 126-135 from [{user: u}], once the standing gate has passed:
    the context returned, or the exception raised, by role resolution and
    the minimum-role gate. *)
Lemma tail_after_standing db kw (u : User) (args : gmap string string) res :
  get_context_tail db kw {["user" := VUser u]} args = res ->
  res = inl (HTTPAbort 403) \/
  exists v i s c4 c5 a5,
    (i || s) = true /\
    c4 !! "viewer" = Some (VUser v) /\ c4 !! "instructor" = Some (VBool i) /\
    c4 !! "student" = Some (VBool s) /\ is_Some (c4 !! "alternate_view") /\
    dom c4 = {["user"; "viewer"; "alternate_view"; "instructor"; "student"]}
               ∪ (if kw_course_id kw then {["course"]} else ∅) /\
    _set_role_context c4 args = inr (c5, a5) /\
    res = (let* m := role_getitem (upper (default "student" (kw_min_role kw))) in
           let* r := getitem c5 "role" in
           let* below := role_gt m r in
           if below then abort 403 else mret c5).
Proof.
  intros <-. pose proof (pipeline_shape db kw u args) as P. cbv zeta in P. rewrite P. clear P.
  set (v := if admin u then _ else u).
  set (c1 := <["alternate_view" := _]> (<["viewer" := VUser v]> _)).
  set (i := if admin v then true else
             match course_in_scope db kw with Some c => teaching db v c | None => false end).
  set (s := match course_in_scope db kw with Some c => taking db v c | None => false end).
  set (c4 := <["student" := VBool s]> (<["instructor" := VBool i]> (_set_course_context db kw c1))).
  destruct (i || s) eqn:Hst; step; [|by left].
  assert (Hv : c4 !! "viewer" = Some (VUser v))
    by (subst c4 c1; lookup_simpl; rewrite course_context_ne by done; by lookup_simpl).
  assert (Hi : c4 !! "instructor" = Some (VBool i)) by (subst c4; by lookup_simpl).
  assert (Ha : is_Some (c4 !! "alternate_view"))
    by (subst c4 c1; lookup_simpl; rewrite course_context_ne by done; lookup_simpl; eauto).
  destruct Ha as [alt Ha].
  destruct (role_context_total c4 args v (VBool i) alt Hv Hi Ha) as (c5 & a5 & Hr).
  rewrite Hr. step. right. exists v, i, s, c4, c5, a5.
  do 4 (split; [first [done | subst c4; by lookup_simpl]|]). split; [eauto|]. split.
  - subst c4 c1. unfold _set_course_context. destruct (kw_course_id kw); rewrite !dom_insert_L;
      rewrite ?dom_singleton_L; set_solver.
  - split; [done|]. done.
Qed.

(** X1: a login-required request whose session names no stored user
    (no session email, or an email matching no row) is aborted with 401. *)
Theorem get_context_requires_login (db : DB) session_email (args : gmap string string) kw :
  default true (kw_login_required kw) = true ->
  find_user_by_email db session_email = None ->
  get_context db session_email args kw = inl (HTTPAbort 401).
Proof.
  intros Hl Hu. unfold get_context, _set_user_context, getitem. rewrite Hl, Hu. step.
  by rewrite lookup_insert_eq.
Qed.

Lemma get_context_requires_login_witness :
  default true (kw_login_required (mkKwargs (Some 7) None None None)) = true /\
  find_user_by_email sample_db (Some "eve@x.edu") = None /\
  get_context sample_db (Some "eve@x.edu") {["viewer" := "root@x.edu"]} (mkKwargs (Some 7) None None None)
    = inl (HTTPAbort 401).
Proof.
  split; [reflexivity|]. split; [reflexivity|].
  apply get_context_requires_login; reflexivity.
Defined.

(** X2: when lines 126-135 return a context, both gates held: the
    viewer has instructor or student standing, the minimum role parses,
    and the effective role is at least that minimum. *)
Theorem tail_result_meets_gates db kw (u : User) (args : gmap string string) c :
  get_context_tail db kw {["user" := VUser u]} args = inr c ->
  exists i s r m,
    c !! "instructor" = Some (VBool i) /\ c !! "student" = Some (VBool s) /\ (i || s) = true /\
    c !! "role" = Some (VRole r) /\
    role_of_name (upper (default "student" (kw_min_role kw))) = Some m /\
    role_value m <= role_value r.
Proof.
  intros H. destruct (tail_after_standing _ _ _ _ _ H) as [|(v & i & s & c4 & c5 & a5 & Hst & Hv & Hi & Hs & _ & _ & Hr & E)];
    [discriminate|].
  destruct (role_step _ _ _ _ _ _ Hv Hi Hr) as (r & alt & _ & _ & ->).
  unfold role_getitem, getitem in E.
  destruct (role_of_name _) as [m|] eqn:Hm; step in E; [|discriminate E].
  rewrite lookup_insert_ne, lookup_insert_eq in E by done. step in E.
  destruct (Nat.ltb (role_value r) (role_value m)) eqn:Hlt; step in E; [discriminate E|].
  injection E as E. subst c. exists i, s, r, m. lookup_simpl. rewrite Hi, Hs.
  apply Nat.ltb_ge in Hlt. done.
Qed.

Lemma tail_result_meets_gates_witness :
  get_context_tail sample_db (mkKwargs (Some 7) None None (Some "Instructor"))
    {["user" := VUser fac]} ∅ <> inl (HTTPAbort 403) /\
  exists c, get_context_tail sample_db (mkKwargs (Some 7) None None (Some "Instructor"))
              {["user" := VUser fac]} ∅ = inr c /\
  exists i s r m,
    c !! "instructor" = Some (VBool i) /\ c !! "student" = Some (VBool s) /\ (i || s) = true /\
    c !! "role" = Some (VRole r) /\
    role_of_name (upper (default "student" (Some "Instructor"))) = Some m /\
    role_value m <= role_value r.
Proof.
  split; [vm_compute; discriminate|].
  destruct (get_context_tail sample_db (mkKwargs (Some 7) None None (Some "Instructor"))
              {["user" := VUser fac]} ∅) as [e|c] eqn:H; [vm_compute in H; discriminate H|].
  exists c. split; [reflexivity|].
  exact (tail_result_meets_gates sample_db (mkKwargs (Some 7) None None (Some "Instructor")) fac ∅ c H).
Defined.

Lemma role_min_le_l (a b : Role) : role_value (role_min a b) <= role_value a.
Proof. destruct a, b; cbv; lia. Qed.

(** With a parseable [role] argument naming [p], the effective role is at
    most [p]. *)
Lemma role_le_requested ctx (args : gmap string string) ctx' args' q p :
  args !! "role" = Some q -> role_of_name (upper q) = Some p ->
  _set_role_context ctx args = inr (ctx', args') ->
  exists r, ctx' !! "role" = Some (VRole r) /\ role_value r <= role_value p.
Proof.
  intros Hq Hp. unfold _set_role_context.
  assert (Hd : discard_invalid_role args = args).
  { unfold discard_invalid_role. rewrite Hq, bool_decide_eq_true_2; [done|]. rewrite Hp. eauto. }
  rewrite Hd. unfold getitem.
  assert (Hb : forall c d k c', role_branch c args d k = inr c' ->
             exists r, c' !! "role" = Some (VRole r) /\ role_value r <= role_value p).
  { intros c d k c'. unfold role_branch, role_getitem, getitem. rewrite Hq. simpl default.
    rewrite Hp. step. lookup_simpl. destruct (c !! "alternate_view"); step; [|discriminate].
    lookup_simpl. step. intros [= <-]. lookup_simpl. eexists; split; [done|]. apply role_min_le_l. }
  destruct (<["Role":=VRoleClass]> ctx !! "viewer") as [w|]; step; [|discriminate].
  destruct (attr_admin w) as [|[]]; step; [discriminate| |].
  { destruct (role_branch _ _ _ _) eqn:E; step; [discriminate|]. intros [= <- _]. eauto. }
  destruct (attr_faculty w) as [|[]]; step; [discriminate| |].
  { destruct (role_branch _ _ _ _) eqn:E; step; [discriminate|]. intros [= <- _]. eauto. }
  destruct (<["Role":=VRoleClass]> ctx !! "instructor") as [i|]; step; [|discriminate].
  destruct (truthy i).
  { destruct (role_branch _ _ _ _) eqn:E; step; [discriminate|]. intros [= <- _]. eauto. }
  lookup_simpl. destruct (_ !! "alternate_view"); step; [|discriminate].
  lookup_simpl. step. intros [= <- _]. lookup_simpl. exists STUDENT. split; [done|]. simpl; lia.
Qed.

(** X3: a [min_role] keyword that names no Role member never lets lines
    126-135 return a context: the request is aborted with 403 at the
    standing gate or raises KeyError at [Role[...]] on line 133. *)
Theorem tail_invalid_min_role db kw (u : User) (args : gmap string string) mr :
  kw_min_role kw = Some mr -> role_of_name (upper mr) = None ->
  get_context_tail db kw {["user" := VUser u]} args = inl (HTTPAbort 403) \/
  get_context_tail db kw {["user" := VUser u]} args = inl (KeyError (upper mr)).
Proof.
  intros Hk Hn.
  destruct (tail_after_standing db kw u args _ eq_refl) as [H|(v & i & s & c4 & c5 & a5 & _ & _ & _ & _ & _ & _ & _ & E)];
    [by left|].
  right. rewrite E, Hk. unfold role_getitem. simpl default. by rewrite Hn.
Qed.

Lemma tail_invalid_min_role_witness :
  let kw := mkKwargs (Some 7) None None (Some "teacher") in
  kw_min_role kw = Some "teacher" /\ role_of_name (upper "teacher") = None /\
  get_context_tail sample_db kw {["user" := VUser fac]} ∅ = inl (KeyError "TEACHER").
Proof.
  intros kw. split; [reflexivity|]. split; [reflexivity|].
  destruct (tail_invalid_min_role sample_db kw fac ∅ "teacher" eq_refl eq_refl) as [H|H];
    [vm_compute in H; discriminate H | exact H].
Defined.

(** X4: a context returned by lines 126-135 has exactly the keys user,
    viewer, alternate_view, instructor, student, Role and role, plus
    course when the endpoint passes a course id. *)
Theorem tail_result_keys db kw (u : User) (args : gmap string string) c :
  get_context_tail db kw {["user" := VUser u]} args = inr c ->
  dom c = {["user"; "viewer"; "alternate_view"; "instructor"; "student"; "Role"; "role"]}
            ∪ (if kw_course_id kw then {["course"]} else ∅).
Proof.
  intros H. destruct (tail_after_standing _ _ _ _ _ H) as [|(v & i & s & c4 & c5 & a5 & _ & Hv & Hi & _ & _ & Hd & Hr & E)];
    [discriminate|].
  destruct (role_step _ _ _ _ _ _ Hv Hi Hr) as (r & alt & _ & _ & ->).
  unfold role_getitem, getitem in E. destruct (role_of_name _) as [m|]; step in E; [|discriminate E].
  rewrite lookup_insert_ne, lookup_insert_eq in E by done. step in E.
  destruct (Nat.ltb _ _); step in E; [discriminate E|]. injection E as E. subst c.
  rewrite !dom_insert_L, Hd. destruct (kw_course_id kw); set_solver.
Qed.

Lemma tail_result_keys_witness :
  let kw := mkKwargs (Some 7) None None None in
  exists c, get_context_tail sample_db kw {["user" := VUser alice]} ∅ = inr c /\
  dom c = {["user"; "viewer"; "alternate_view"; "instructor"; "student"; "Role"; "role"]}
            ∪ (if kw_course_id kw then {["course"]} else ∅).
Proof.
  intros kw. destruct (get_context_tail sample_db kw {["user" := VUser alice]} ∅) as [e|c] eqn:H;
    [vm_compute in H; discriminate H|].
  exists c. split; [reflexivity|]. exact (tail_result_keys sample_db kw alice ∅ c H).
Defined.

(** X5: for an admin principal with a [viewer] URL argument, the viewer
    becomes the user with that email, or stays the principal when no row
    matches; [alternate_view] records whether the viewer differs from the
    principal. *)
Theorem admin_viewer_substitution (db : DB) (ctx : gmap string Value)
    (args : gmap string string) (u : User) e :
  ctx !! "user" = Some (VUser u) -> ctx !! "viewer" = None -> admin u = true ->
  args !! "viewer" = Some e ->
  let w := default u (find_user_by_email db (Some e)) in
  _set_viewer_context db ctx args
    = inr (<["alternate_view" := VBool (bool_decide (VUser u <> VUser w))]>
             (<["viewer" := VUser w]> ctx)).
Proof.
  intros Hu Hv Ha He w. rewrite (viewer_resolved db ctx args u Hu Hv). by rewrite Ha, He.
Qed.

Lemma admin_viewer_substitution_witness :
  let ctx : gmap string Value := {["user" := VUser root]} in
  ctx !! "user" = Some (VUser root) /\ ctx !! "viewer" = None /\ admin root = true /\
  ({["viewer" := "nobody@x.edu"]} : gmap string string) !! "viewer" = Some "nobody@x.edu" /\
  _set_viewer_context sample_db ctx {["viewer" := "nobody@x.edu"]}
    = inr (<["alternate_view" := VBool false]> (<["viewer" := VUser root]> ctx)).
Proof.
  intros ctx. do 4 (split; [reflexivity|]).
  exact (admin_viewer_substitution sample_db ctx {["viewer" := "nobody@x.edu"]} root "nobody@x.edu"
           eq_refl eq_refl eq_refl eq_refl).
Defined.

(** X6: with no [role] URL argument, role resolution sets the role to the
    viewer's ceiling (admin / faculty / instructor standing / student) and
    leaves a boolean [alternate_view] unchanged; the URL arguments are
    untouched. *)
Theorem role_without_request (ctx : gmap string Value) (args : gmap string string)
    (v : User) (i : Value) (a : bool) :
  ctx !! "viewer" = Some (VUser v) -> ctx !! "instructor" = Some i ->
  ctx !! "alternate_view" = Some (VBool a) -> args !! "role" = None ->
  _set_role_context ctx args
    = inr (<["alternate_view" := VBool a]>
             (<["role" := VRole (trueCeiling v (truthy i))]> (<["Role" := VRoleClass]> ctx)), args).
Proof.
  intros Hv Hi Ha Hr. unfold _set_role_context.
  assert (Hd : discard_invalid_role args = args) by (unfold discard_invalid_role; by rewrite Hr).
  rewrite Hd. unfold getitem. lookup_simpl. rewrite Hv. step. unfold trueCeiling.
  assert (Hb : forall d k, role_getitem (upper d) = inr k ->
             role_branch (<["Role":=VRoleClass]> ctx) args d k
             = inr (<["alternate_view" := VBool a]> (<["role" := VRole k]> (<["Role":=VRoleClass]> ctx)))).
  { intros d k Hk. unfold role_branch, getitem. rewrite Hr. simpl default. rewrite Hk. step.
    lookup_simpl. rewrite Ha. step. lookup_simpl. step.
    assert (Hm : role_min k k = k) by (destruct k; reflexivity). rewrite Hm.
    rewrite bool_decide_eq_false_2 by (by intros []). by rewrite py_or_bool, orb_false_r. }
  destruct (admin v); step; [by rewrite Hb|].
  destruct (faculty v); step; [by rewrite Hb|].
  lookup_simpl. rewrite Hi. step. destruct (truthy i); [by rewrite Hb|].
  lookup_simpl. rewrite Ha. step. lookup_simpl. step.
  rewrite bool_decide_eq_false_2 by (by intros []). by rewrite py_or_bool, orb_false_r.
Qed.

Lemma role_without_request_witness :
  let ctx : gmap string Value :=
    {["viewer" := VUser fac; "instructor" := VBool false; "alternate_view" := VBool true]} in
  ctx !! "viewer" = Some (VUser fac) /\ ctx !! "instructor" = Some (VBool false) /\
  ctx !! "alternate_view" = Some (VBool true) /\
  ({["viewer" := "x"]} : gmap string string) !! "role" = None /\
  _set_role_context ctx {["viewer" := "x"]}
    = inr (<["alternate_view" := VBool true]>
             (<["role" := VRole FACULTY]> (<["Role" := VRoleClass]> ctx)), {["viewer" := "x"]}).
Proof.
  intros ctx. do 4 (split; [reflexivity|]).
  exact (role_without_request ctx {["viewer" := "x"]} fac (VBool false) true
           eq_refl eq_refl eq_refl eq_refl).
Defined.

(** X7: for a non-admin principal, when the endpoint passes no course id
    or a course id matching no course, lines 126-135 abort with 403,
    whatever the URL arguments and privilege flags. *)
Theorem tail_no_course_forbidden db kw (u : User) (args : gmap string string) :
  admin u = false -> course_in_scope db kw = None ->
  get_context_tail db kw {["user" := VUser u]} args = inl (HTTPAbort 403).
Proof.
  intros Ha Hc. pose proof (pipeline_shape db kw u args) as P. cbv zeta in P. rewrite P.
  rewrite Ha, Hc. rewrite Ha. reflexivity.
Qed.

Lemma tail_no_course_forbidden_witness :
  let kw := mkKwargs (Some 42) None None None in
  admin fac = false /\ course_in_scope sample_db kw = None /\
  get_context_tail sample_db kw {["user" := VUser fac]} {["role" := "faculty"]} = inl (HTTPAbort 403).
Proof.
  intros kw. split; [reflexivity|]. split; [reflexivity|].
  exact (tail_no_course_forbidden sample_db kw fac _ eq_refl eq_refl).
Defined.

(** X8: a [role] URL argument naming a role below the endpoint's minimum
    role makes lines 126-135 abort with 403, even when the viewer's true
    ceiling meets the minimum. *)
Theorem tail_preview_below_minimum db kw (u : User) (args : gmap string string) q p m :
  args !! "role" = Some q -> role_of_name (upper q) = Some p ->
  role_of_name (upper (default "student" (kw_min_role kw))) = Some m ->
  role_value p < role_value m ->
  get_context_tail db kw {["user" := VUser u]} args = inl (HTTPAbort 403).
Proof.
  intros Hq Hp Hm Hlt.
  destruct (tail_after_standing db kw u args _ eq_refl) as [H|(v & i & s & c4 & c5 & a5 & _ & _ & _ & _ & _ & _ & Hr & E)];
    [done|].
  rewrite E. destruct (role_le_requested _ _ _ _ _ _ Hq Hp Hr) as (r & Hr5 & Hle).
  unfold role_getitem, getitem. rewrite Hm, Hr5. step. cbn [role_gt mbind mret].
  assert (Hb : Nat.ltb (role_value r) (role_value m) = true) by (apply Nat.ltb_lt; lia).
  by rewrite Hb.
Qed.

(** Scenario E of the spec: [fac] teaches course 7, previews it as a
    student on an instructor-only endpoint. *)
Lemma tail_preview_below_minimum_witness :
  let kw := mkKwargs (Some 7) None None (Some "instructor") in
  ({["role" := "student"]} : gmap string string) !! "role" = Some "student" /\
  role_of_name (upper "student") = Some STUDENT /\
  role_of_name (upper (default "student" (kw_min_role kw))) = Some INSTRUCTOR /\
  role_value STUDENT < role_value INSTRUCTOR /\
  get_context_tail sample_db kw {["user" := VUser fac]} {["role" := "student"]} = inl (HTTPAbort 403).
Proof.
  intros kw. do 3 (split; [reflexivity|]). split; [simpl; lia|].
  exact (tail_preview_below_minimum sample_db kw fac {["role" := "student"]} "student" STUDENT INSTRUCTOR
           eq_refl eq_refl eq_refl ltac:(simpl; lia)).
Defined.

(** X9: the home page.  An anonymous request (no session email, or one
    matching no user) is redirected to the root endpoint through the 401
    handler; a logged-in one renders home.html with the principal and the
    rows of every table. *)
Theorem home_response (tb : Routes.Tables) session_email :
  Routes.handle (Routes.home tb session_email) =
    match Routes.get_user (Routes.tb_db tb) session_email with
    | None => Routes.Redirect "demograder.root"
    | Some u =>
        Routes.Render "home.html"
          (Some (Routes.mkRouteContext u (db_users (Routes.tb_db tb)) (db_courses (Routes.tb_db tb))
                   (Routes.tb_assignments tb) (Routes.tb_questions tb) (Routes.tb_question_files tb)))
    end.
Proof.
  unfold Routes.handle, Routes.home, Routes.get_context.
  by destruct (Routes.get_user (Routes.tb_db tb) session_email).
Qed.

(** X10: the root and home endpoints never redirect to each other in a
    loop: for every session, either root renders index.html and home
    redirects to root, or root redirects to home and home renders
    home.html for the session's user. *)
Theorem root_home_no_loop (tb : Routes.Tables) session_email :
  (Routes.handle (Routes.root tb session_email) = Routes.Render "index.html" None /\
   Routes.handle (Routes.home tb session_email) = Routes.Redirect "demograder.root" /\
   Routes.get_user (Routes.tb_db tb) session_email = None) \/
  (Routes.handle (Routes.root tb session_email) = Routes.Redirect "demograder.home" /\
   exists c, Routes.handle (Routes.home tb session_email) = Routes.Render "home.html" (Some c) /\
     Routes.get_user (Routes.tb_db tb) session_email = Some (Routes.rc_user c)).
Proof.
  unfold Routes.handle, Routes.root, Routes.home, Routes.get_context.
  destruct (Routes.get_user (Routes.tb_db tb) session_email) as [u|]; [right|left]; step.
  - split; [done|]. eexists; split; [reflexivity|]. done.
  - done.
Qed.
